(** * qutebrowser.commands.utils: command registration and arity inference

    A shallow embedding of [qutebrowser/commands/utils.py]: the global
    [cmd_dict], the decorator class [register] with its three methods
    [__init__], [__call__] and [_get_nargs_count], and the pieces of the
    Python standard library they call ([inspect.getfullargspec],
    [str.lower], [str.splitlines], [str.strip], [str.rstrip]).

    Conventions of the model.
    - A Python [str] is a sequence of code points; the model keeps the code
      points below 256, one [ascii] each, in a Rocq [string].  The tables of
      line boundaries, white space and letter case are Python's, cut to
      that range.
    - A Python [int] is unbounded: [Z].  [None] in a slot that may also hold
      a value is [option].
    - Exceptions are results: a method returns [Return v] or [Raise e],
      together with the state it leaves behind.
    - [cmd_dict] maps names to references; the [Command] objects live in a
      store indexed by reference, so that two names bound to one object are
      told apart from two names bound to equal objects. *)

From Stdlib Require Import ZArith Lia String Ascii.
From stdpp Require Import base option list gmap strings fin_maps.

Local Open Scope string_scope.
Local Open Scope list_scope.
Local Open Scope Z_scope.

(** ** Python strings *)

Module PyStr.

Definition code (c : ascii) : N := N_of_ascii c.

(** Line boundaries of [str.splitlines]: LF, VT, FF, CR, FS, GS, RS and
    NEL (CR LF is handled by [splitlines] itself). *)
Definition is_linebreak (c : ascii) : bool :=
  let n := code c in
  ((10 <=? n) && (n <=? 13) || (28 <=? n) && (n <=? 30) || (n =? 133))%N.

(** White space of [str.strip] without argument ([str.isspace]): TAB to
    CR, FS to US, space, NEL and NBSP. *)
Definition is_space (c : ascii) : bool :=
  let n := code c in
  ((9 <=? n) && (n <=? 13) || (28 <=? n) && (n <=? 32)
   || (n =? 133) || (n =? 160))%N.

(** Upper-case letters with a lower-case partner: A-Z and, in Latin-1,
    U+00C0-U+00DE without the multiplication sign U+00D7. *)
Definition is_upper (c : ascii) : bool :=
  let n := code c in
  ((65 <=? n) && (n <=? 90)
   || (192 <=? n) && (n <=? 222) && negb (n =? 215))%N.

Definition lower_char (c : ascii) : ascii :=
  if is_upper c then ascii_of_N (code c + 32) else c.

(** [s.lower()] *)
Fixpoint lower (s : string) : string :=
  match s with
  | EmptyString => EmptyString
  | String c r => String (lower_char c) (lower r)
  end.

(** [s.splitlines()], written as CPython's loop: [line] holds, in reverse,
    the characters read since the last boundary.  A boundary closes the
    current line, even an empty one; the end of the string closes it only
    when it holds a character. *)
Fixpoint splitlines_from (line : list ascii) (s : string) : list string :=
  match s with
  | EmptyString =>
      match line with
      | [] => []
      | _ => [string_of_list_ascii (rev line)]
      end
  | String c r =>
      if is_linebreak c then
        string_of_list_ascii (rev line) ::
        match r with
        | String c' r' =>
            if (code c =? 13)%N && (code c' =? 10)%N
            then splitlines_from [] r'
            else splitlines_from [] r
        | EmptyString => splitlines_from [] r
        end
      else splitlines_from (c :: line) r
  end.

Definition splitlines (s : string) : list string := splitlines_from [] s.

(** [s.lstrip(...)], [s.rstrip(...)] for a set of characters [p]. *)
Fixpoint lstrip_by (p : ascii -> bool) (s : string) : string :=
  match s with
  | EmptyString => EmptyString
  | String c r => if p c then lstrip_by p r else s
  end.

Fixpoint rstrip_by (p : ascii -> bool) (s : string) : string :=
  match s with
  | EmptyString => EmptyString
  | String c r =>
      match rstrip_by p r with
      | EmptyString => if p c then EmptyString else String c EmptyString
      | r' => String c r'
      end
  end.

(** [s.strip()] *)
Definition strip (s : string) : string :=
  rstrip_by is_space (lstrip_by is_space s).

(** [s.rstrip(chars)] *)
Definition rstrip (chars : string) (s : string) : string :=
  rstrip_by (fun c => bool_decide (c ∈ list_ascii_of_string chars)) s.

End PyStr.

(** ** Python values, functions and signatures *)

(** The values that occur as parameter defaults.  The module only counts
    them. *)
Inductive pyval : Type :=
| PyNone
| PyBool (b : bool)
| PyInt (n : Z)
| PyStr (s : string).

(** A positional parameter of a [def]: its name and its default, if any. *)
Record param : Type := Param {
  p_name : string;
  p_default : option pyval
}.

#[global] Instance pyval_eq_dec : EqDecision pyval.
Proof. solve_decision. Defined.
#[global] Instance param_eq_dec : EqDecision param.
Proof. solve_decision. Defined.

(** A function object, as far as this module reads it: [__name__], the
    positional parameters, the name of the [*args] parameter and
    [__doc__].  Keyword-only parameters and [**kwargs], which
    [inspect.getfullargspec] reports in fields the module never reads, are
    left out.  The module never writes to a function object, so it is an
    immutable value here. *)
Record function : Type := Function {
  f_name : string;
  f_params : list param;
  f_varargs : option string;
  f_doc : option string
}.

(** The fields of [inspect.getfullargspec(func)] that the module reads. *)
Record FullArgSpec : Type := {
  args : list string;
  varargs : option string;
  defaults : option (list pyval)
}.

(** [inspect.getfullargspec]: [args] lists the positional parameter names,
    [defaults] is the tuple of their default values, or [None] when no
    parameter has one. *)
Definition getfullargspec (func : function) : FullArgSpec :=
  {| args := p_name <$> f_params func;
     varargs := f_varargs func;
     defaults := match omap p_default (f_params func) with
                 | [] => None
                 | ds => Some ds
                 end |}.

(** Python rejects a [def] that names two parameters alike. *)
Definition wf_function (func : function) : Prop :=
  NoDup (p_name <$> f_params func).

(** ** Exceptions and state *)

Inductive exn : Type := ValueError | IndexError.

Inductive outcome (A : Type) : Type :=
| Return (a : A)
| Raise (e : exn).
Arguments Return {A} a.
Arguments Raise {A} e.

(** The arguments of [register(...)]. *)
Inductive name_arg : Type :=
| NameStr (s : string)
| NameList (l : list string).

(** [nargs]: an int, or an iterable of values each an int or [None]. *)
Inductive nargs_arg : Type :=
| NInt (n : Z)
| NSeq (l : list (option Z)).

(** Modelled from the spec: the class [Command] of
    [qutebrowser.commands._command] is imported, not defined, by the
    module.  The spec describes it as an opaque record that registration
    populates; it is modelled as the record of the keyword arguments that
    [__call__] passes to its constructor, stored as given. *)
Record Command : Type := {
  c_name : string;
  c_maxsplit : Z;
  c_hide : bool;
  c_nargs : option Z * option Z;
  c_count : bool;
  c_desc : string;
  c_instance : option string;
  c_handler : function;
  c_completion : option (list string);
  c_modes : option (list string);
  c_not_modes : option (list string)
}.

Definition ref : Type := nat.

(** The process state: the [Command] objects created so far, indexed by
    reference, and the module attribute [cmd_dict]. *)
Record state : Type := State {
  objects : list Command;
  cmd_dict : gmap string ref
}.

Definition initial_state : state := State [] ∅.

(** Computations that read and write the state and may raise. *)
Definition M (A : Type) : Type := state -> outcome A * state.

Definition ret {A} (a : A) : M A := fun st => (Return a, st).
Definition raise {A} (e : exn) : M A := fun st => (Raise e, st).
Definition bind {A B} (m : M A) (k : A -> M B) : M B :=
  fun st =>
    match m st with
    | (Return a, st') => k a st'
    | (Raise e, st') => (Raise e, st')
    end.
Definition lift {A} (o : outcome A) : M A := fun st => (o, st).

#[global] Instance M_bind : MBind M := fun A B k m => bind m k.

(** [x is not None] *)
Definition is_not_None {A} (x : option A) : bool :=
  match x with Some _ => true | None => false end.

(** [Command(...)]: a new object, at a reference not in use. *)
Definition new_Command (c : Command) : M ref :=
  fun st => (Return (length (objects st)),
             State (objects st ++ [c]) (cmd_dict st)).

(** [cmd_dict[name] = cmd] *)
Definition cmd_dict_setitem (name : string) (cmd : ref) : M unit :=
  fun st => (Return tt, State (objects st) (<[name := cmd]> (cmd_dict st))).

(** [for x in xs: body(x)] *)
Fixpoint for_in {A} (xs : list A) (body : A -> M unit) : M unit :=
  match xs with
  | [] => ret tt
  | x :: xs' => body x ;; for_in xs' body
  end.

(** ** The decorator class *)

Module register.

(** The attributes of an instance. *)
Record t : Type := {
  name : option name_arg;
  maxsplit : Z;
  hide : bool;
  nargs : option nargs_arg;
  instance : option string;
  completion : option (list string);
  modes : option (list string);
  not_modes : option (list string)
}.

Definition __init__ (instance : option string) (name : option name_arg)
    (nargs : option nargs_arg) (maxsplit : Z) (hide : bool)
    (completion modes not_modes : option (list string)) : M t :=
  if is_not_None modes && is_not_None not_modes
  then raise ValueError
  else ret {| name := name; maxsplit := maxsplit; hide := hide;
              nargs := nargs; instance := instance;
              completion := completion; modes := modes;
              not_modes := not_modes |}.

Definition _get_nargs_count (self : t) (func : function)
    : outcome (bool * (option Z * option Z)) :=
  let spec := getfullargspec func in
  let count := bool_decide ("count" ∈ args spec) in
  match nargs self with
  | Some (NSeq l) =>
      (* minargs, maxargs = self.nargs *)
      match l with
      | [minargs; maxargs] => Return (count, (minargs, maxargs))
      | _ => Raise ValueError
      end
  | Some (NInt n) =>
      (* minargs, maxargs = self.nargs, self.nargs *)
      Return (count, (Some n, Some n))
  | None =>
      let defaultcount :=
        match defaults spec with
        | Some ds => Z.of_nat (length ds)
        | None => 0
        end in
      let argcount := Z.of_nat (length (args spec)) in
      let argcount :=
        if bool_decide ("self" ∈ args spec) then argcount - 1
        else argcount in
      let minargs := argcount - defaultcount in
      let maxargs :=
        match varargs spec with
        | Some _ => None
        | None => Some (argcount - Z.b2z count)
        end in
      Return (count, (Some minargs, maxargs))
  end.

Definition __call__ (self : t) (func : function) : M function :=
  let names : list string := [] in
  let name :=
    match name self with
    | None => NameStr (PyStr.lower (f_name func))
    | Some n => n
    end in
  '(mainname, names) ←
    match name with
    | NameStr s => ret (s, names ++ [s])
    | NameList l =>
        match l with
        | m :: _ => ret (m, names ++ l)
        | [] => raise IndexError
        end
    end;
  '(count, nargs) ← lift (_get_nargs_count self func);
  desc ←
    match f_doc func with
    | Some doc =>
        (* func.__doc__.splitlines()[0].strip().rstrip('.') *)
        match PyStr.splitlines doc with
        | line :: _ => ret (PyStr.rstrip "." (PyStr.strip line))
        | [] => raise IndexError
        end
    | None => ret EmptyString
    end;
  cmd ← new_Command
    {| c_name := mainname; c_maxsplit := maxsplit self;
       c_hide := hide self; c_nargs := nargs; c_count := count;
       c_desc := desc; c_instance := instance self; c_handler := func;
       c_completion := completion self; c_modes := modes self;
       c_not_modes := not_modes self |};
  for_in names (fun name => cmd_dict_setitem name cmd);;
  ret func.

End register.

(** [@register(...)] above [def func]: the class is instantiated with the
    decorator arguments, then the instance is called on the function. *)
Definition decorate (instance : option string) (name : option name_arg)
    (nargs : option nargs_arg) (maxsplit : Z) (hide : bool)
    (completion modes not_modes : option (list string)) (func : function)
    : M function :=
  self ← register.__init__ instance name nargs maxsplit hide completion
           modes not_modes;
  register.__call__ self func.

(** ** Vocabulary of the claims *)

(** *** Counting the parameters of a signature *)

(** The receiver is the parameter the module looks for under the name
    [self]. *)
Definition is_receiver (p : param) : Prop := p_name p = "self".
Definition has_default (p : param) : Prop := is_Some (p_default p).

#[global] Instance is_receiver_dec p : Decision (is_receiver p).
Proof. unfold is_receiver. apply _. Defined.
#[global] Instance has_default_dec p : Decision (has_default p).
Proof. unfold has_default. apply _. Defined.

(** The parameters not called [k]. *)
Definition params_without (k : string) (ps : list param) : list param :=
  filter (fun p => p_name p ≠ k) ps.

Definition non_receiver_params (func : function) : list param :=
  params_without "self" (f_params func).

(** The number of parameters other than the receiver. *)
Definition param_count (func : function) : Z :=
  Z.of_nat (length (non_receiver_params func)).

(** The number of parameters other than the receiver that have a default. *)
Definition non_receiver_default_count (func : function) : Z :=
  Z.of_nat (length (filter has_default (non_receiver_params func))).

(** The number of parameters that have a default, the receiver included. *)
Definition default_count (func : function) : Z :=
  Z.of_nat (length (filter has_default (f_params func))).

Definition has_param (name : string) (func : function) : bool :=
  bool_decide (name ∈ p_name <$> f_params func).

(** The signature with every parameter called [name] taken out. *)
Definition without_param (name : string) (func : function) : function :=
  {| f_name := f_name func;
     f_params := params_without name (f_params func);
     f_varargs := f_varargs func;
     f_doc := f_doc func |}.

(** *** Registration *)

(** The names a call registers: the [names] list of [__call__]. *)
Definition registered_names (self : register.t) (func : function)
    : list string :=
  match register.name self with
  | None => [PyStr.lower (f_name func)]
  | Some (NameStr s) => [s]
  | Some (NameList l) => l
  end.

(** [cmd_dict] after [for name in names: cmd_dict[name] = cmd]. *)
Definition bind_names (names : list string) (cmd : ref)
    (d : gmap string ref) : gmap string ref :=
  foldl (fun d name => <[name := cmd]> d) d names.

(** The description that [__call__] computes from [func.__doc__]:
    [func.__doc__.splitlines()[0].strip().rstrip('.')], or the empty string
    when [func.__doc__] is [None]. *)
Definition desc_of_doc (doc : option string) : outcome string :=
  match doc with
  | Some d =>
      match PyStr.splitlines d with
      | line :: _ => Return (PyStr.rstrip "." (PyStr.strip line))
      | [] => Raise IndexError
      end
  | None => Return EmptyString
  end.

(** The tuple unpacking [minargs, maxargs = self.nargs] goes through. *)
Definition unpacks (nargs : option nargs_arg) : bool :=
  match nargs with
  | Some (NSeq l) => bool_decide (length l = 2%nat)
  | _ => true
  end.

(** The record that [__call__] builds once names, arity and description
    are known. *)
Definition command_of (self : register.t) (func : function)
    (mainname : string) (count : bool) (nargs : option Z * option Z)
    (desc : string) : Command :=
  {| c_name := mainname; c_maxsplit := register.maxsplit self;
     c_hide := register.hide self; c_nargs := nargs; c_count := count;
     c_desc := desc; c_instance := register.instance self;
     c_handler := func; c_completion := register.completion self;
     c_modes := register.modes self;
     c_not_modes := register.not_modes self |}.

(** *** Descriptions *)

(** Every character of [s] satisfies [p]. *)
Fixpoint all_chars (p : ascii -> bool) (s : string) : bool :=
  match s with
  | EmptyString => true
  | String c r => p c && all_chars p r
  end.

Fixpoint last_char (s : string) : option ascii :=
  match s with
  | EmptyString => None
  | String c EmptyString => Some c
  | String _ r => last_char r
  end.

Definition first_char (s : string) : option ascii :=
  match s with
  | EmptyString => None
  | String c _ => Some c
  end.

Definition is_period (c : ascii) : bool :=
  bool_decide (c ∈ list_ascii_of_string ".").

(** The first line of a documentation string (the empty string when it
    has no line). *)
Definition first_line (d : string) : string :=
  default EmptyString (head (PyStr.splitlines d)).

(** Follows the spec's words, for comparison with [desc_of_doc]:
    the first line of the documentation, trimmed of surrounding white
    space and with a single trailing period stripped; the empty string
    when there is no documentation. *)
Fixpoint rstrip_one (c : ascii) (s : string) : string :=
  match s with
  | EmptyString => EmptyString
  | String c0 EmptyString => if decide (c0 = c) then EmptyString else s
  | String c0 r => String c0 (rstrip_one c r)
  end.

Definition spec_description (doc : option string) : string :=
  match doc with
  | Some d => rstrip_one "." (PyStr.strip (first_line d))
  | None => EmptyString
  end.

(** ** Sample decorators and handlers *)

(** The instance made by [register()]. *)
Definition plain : register.t :=
  {| register.name := None; register.maxsplit := -1;
     register.hide := false; register.nargs := None;
     register.instance := None; register.completion := None;
     register.modes := None; register.not_modes := None |}.

(** The instance made by [register(nargs=n)]. *)
Definition with_nargs (n : nargs_arg) : register.t :=
  {| register.name := None; register.maxsplit := -1;
     register.hide := false; register.nargs := Some n;
     register.instance := None; register.completion := None;
     register.modes := None; register.not_modes := None |}.

(** The instance made by [register(name=names)]. *)
Definition with_names (names : list string) : register.t :=
  {| register.name := Some (NameList names); register.maxsplit := -1;
     register.hide := false; register.nargs := None;
     register.instance := None; register.completion := None;
     register.modes := None; register.not_modes := None |}.

(** Line feed and carriage return, as one-character strings. *)
Definition LF : string := String (ascii_of_N 10) EmptyString.
Definition CR : string := String (ascii_of_N 13) EmptyString.

(** [def search(self, text, reverse=False)] *)
Definition search : function :=
  {| f_name := "search";
     f_params := [Param "self" None; Param "text" None;
                  Param "reverse" (Some (PyBool false))];
     f_varargs := None;
     f_doc := Some "Search for a text on the current page." |}.

(** [def openurl(self, url, count=None)] *)
Definition openurl : function :=
  {| f_name := "openurl";
     f_params := [Param "self" None; Param "url" None;
                  Param "count" (Some PyNone)];
     f_varargs := None;
     f_doc := Some "Open an url in the current/[count]th tab..." |}.

(** [def scroll(self, count=1, *directions)] *)
Definition scroll : function :=
  {| f_name := "scroll";
     f_params := [Param "self" None; Param "count" (Some (PyInt 1))];
     f_varargs := Some "directions";
     f_doc := None |}.

(** [def reload(self=None)]: a receiver with a default. *)
Definition reload : function :=
  {| f_name := "reload";
     f_params := [Param "self" (Some PyNone)];
     f_varargs := None;
     f_doc := None |}.

(** [def quit()] with a docstring that is the empty string. *)
Definition quit : function :=
  {| f_name := "quit"; f_params := []; f_varargs := None;
     f_doc := Some EmptyString |}.

(** ** Vocabulary of the further properties *)

(** The call [self(func)] gets through its three fallible steps: the name
    is not an empty list, [nargs] unpacks, and the docstring has a first
    line. *)
Definition registers (self : register.t) (func : function) : Prop :=
  registered_names self func ≠ []
  /\ unpacks (register.nargs self)
  /\ f_doc func ≠ Some EmptyString.


(** A [Command] restricted by [modes] or by [not_modes], never by both. *)
Definition modes_exclusive (c : Command) : Prop :=
  c_modes c = None \/ c_not_modes c = None.

Definition not_linebreak (c : ascii) : bool := negb (PyStr.is_linebreak c).

(** The signature of [func] with one more parameter, [p]. *)
Definition add_param (p : param) (func : function) : function :=
  {| f_name := f_name func;
     f_params := f_params func ++ [p];
     f_varargs := f_varargs func;
     f_doc := f_doc func |}.

(** [def search(text, reverse=False, self)]: the parameters of [search]
    in another order. *)
Definition search_reordered : function :=
  {| f_name := "search";
     f_params := [Param "text" None; Param "reverse" (Some (PyBool false));
                  Param "self" None];
     f_varargs := None;
     f_doc := Some "Search for a text on the current page." |}.

(** [def back(self)] with a docstring that opens with a line break. *)
Definition back : function :=
  {| f_name := "Back";
     f_params := [Param "self" None];
     f_varargs := None;
     f_doc := Some (LF +:+ "    Go back in the history.") |}.

(** [def zoom(self, count)]: a [count] without default. *)
Definition zoom : function :=
  {| f_name := "zoom";
     f_params := [Param "self" None; Param "count" None];
     f_varargs := None;
     f_doc := None |}.

(** Settles a decidable closed goal by evaluating its decision
    procedure. *)
Ltac decide_by_compute :=
  lazymatch goal with
  | |- ?P =>
      let d := constr:(_ : Decision P) in
      apply (@bool_decide_unpack P d); vm_compute; exact I
  end.

(** ** Facts about the string functions *)

Section strings.

Import PyStr.

Lemma append_assoc (s t u : string) : (s +:+ t) +:+ u = s +:+ (t +:+ u).
Proof.
  induction s as [|c s IH]; [done|].
  change (String c ((s +:+ t) +:+ u) = String c (s +:+ (t +:+ u))).
  by rewrite IH.
Qed.

Lemma rstrip_by_decompose p s :
  exists t, s = rstrip_by p s +:+ t /\ all_chars p t = true.
Proof.
  induction s as [|c r (t & Hr & Ht)]; [by exists EmptyString|].
  cbn. destruct (rstrip_by p r) as [|c' r'] eqn:Hstrip.
  - destruct (p c) eqn:Hc.
    + exists (String c r). split; [done|]. cbn. rewrite Hc. cbn in Hr.
      by rewrite Hr.
    + exists t. by rewrite Hr at 1.
  - exists t. by rewrite Hr at 1.
Qed.

Lemma rstrip_by_last p s c :
  last_char (rstrip_by p s) = Some c -> p c = false.
Proof.
  induction s as [|c0 r IH]; [done|].
  cbn. destruct (rstrip_by p r) as [|c' r'] eqn:Hstrip.
  - destruct (p c0) eqn:Hc; [done|]. cbn. by intros [= <-].
  - intros Hl. by apply IH.
Qed.

Lemma lstrip_by_decompose p s :
  exists t, s = t +:+ lstrip_by p s /\ all_chars p t = true.
Proof.
  induction s as [|c r (t & Hr & Ht)]; [by exists EmptyString|].
  cbn. destruct (p c) eqn:Hc.
  - exists (String c t). cbn. rewrite Hc, Ht. by rewrite Hr at 1.
  - by exists EmptyString.
Qed.

Lemma lstrip_by_first p s c :
  first_char (lstrip_by p s) = Some c -> p c = false.
Proof.
  induction s as [|c0 r IH]; [done|].
  cbn. destruct (p c0) eqn:Hc; [done|]. cbn. by intros [= <-].
Qed.

Lemma first_char_app s t c :
  first_char s = Some c -> first_char (s +:+ t) = Some c.
Proof. by destruct s. Qed.

(** What [line.strip().rstrip('.')] leaves of a line: the line is the
    result between leading white space and a tail of periods followed by
    white space; the result neither starts with white space nor ends
    with a period. *)
Lemma strip_rstrip_period line :
  let desc := rstrip "." (strip line) in
  (exists ws periods ws',
     line = ws +:+ desc +:+ periods +:+ ws'
     /\ all_chars is_space ws = true
     /\ all_chars is_period periods = true
     /\ all_chars is_space ws' = true)
  /\ (forall c, first_char desc = Some c -> is_space c = false)
  /\ (forall c, last_char desc = Some c -> is_period c = false).
Proof.
  cbv zeta. unfold rstrip, strip. fold is_period.
  destruct (lstrip_by_decompose is_space line) as (ws & Hline & Hws).
  destruct (rstrip_by_decompose is_space (lstrip_by is_space line))
    as (ws' & Hmid & Hws').
  destruct (rstrip_by_decompose is_period
              (rstrip_by is_space (lstrip_by is_space line)))
    as (periods & Hdesc & Hperiods).
  split; [|split].
  - exists ws, periods, ws'. repeat split; try done.
    rewrite Hline at 1. f_equal. rewrite Hmid at 1.
    rewrite Hdesc at 1. by rewrite append_assoc.
  - intros c Hc. apply (lstrip_by_first is_space line).
    rewrite Hmid, Hdesc. by do 2 apply first_char_app.
  - apply rstrip_by_last.
Qed.

Lemma splitlines_from_nil line s :
  splitlines_from line s = [] <-> line = [] /\ s = EmptyString.
Proof.
  revert line. induction s as [|c r IH]; intros line; cbn.
  - destruct line; split; try done. by intros [? _].
  - destruct (is_linebreak c).
    + split; [done|]. by intros [_ ?].
    + rewrite IH. split; [by intros [? _]|by intros [_ ?]].
Qed.

(** Only the empty string has no first line. *)
Lemma splitlines_nil s : splitlines s = [] <-> s = EmptyString.
Proof.
  unfold splitlines. rewrite splitlines_from_nil.
  split; [by intros [_ ?]|done].
Qed.

End strings.

(** ** Counting lemmas *)

Section counting.

Implicit Types (ps : list param) (k : string).

Lemma length_omap_default ps :
  length (omap p_default ps) = length (filter has_default ps).
Proof.
  induction ps as [|p ps IH]; [done|].
  rewrite filter_cons. cbn.
  destruct (decide (has_default p)) as [[d Hd]|Hn].
  - rewrite Hd. cbn. by rewrite IH.
  - destruct (p_default p) as [d|] eqn:Hd; [|done].
    exfalso. apply Hn. unfold has_default. rewrite Hd. eauto.
Qed.

(** Taking out the parameter called [k] shortens a list of distinctly
    named parameters by one when [k] is there, and not at all when it
    is not. *)
Lemma length_without k ps :
  NoDup (p_name <$> ps) ->
  length ps =
    (length (params_without k ps)
     + (if bool_decide (k ∈ p_name <$> ps) then 1 else 0))%nat.
Proof.
  unfold params_without. induction ps as [|p ps IH]; intros Hnd.
  - cbn. rewrite bool_decide_eq_false_2 by apply not_elem_of_nil. done.
  - rewrite fmap_cons in Hnd. apply NoDup_cons in Hnd as [Hp Hnd].
    specialize (IH Hnd). rewrite filter_cons, fmap_cons.
    destruct (decide (p_name p ≠ k)) as [Hne|Heq].
    + cbn [length]. rewrite IH at 1.
      destruct (bool_decide_reflect (k ∈ p_name <$> ps)) as [Hin|Hnin].
      * rewrite bool_decide_eq_true_2 by (by right). lia.
      * rewrite bool_decide_eq_false_2; [lia|].
        intros [?|?]%elem_of_cons; congruence.
    + apply dec_stable in Heq. subst k.
      rewrite bool_decide_eq_true_2 by left.
      rewrite bool_decide_eq_false_2 in IH by done. cbn [length]. lia.
Qed.

Lemma filter_without_absent k ps :
  k ∉ p_name <$> ps -> params_without k ps = ps.
Proof.
  unfold params_without. induction ps as [|q ps IH]; [done|].
  rewrite fmap_cons, not_elem_of_cons. intros [Hq Hps].
  rewrite filter_cons_True by (intros ?; by apply Hq).
  by rewrite IH.
Qed.

(** A list of distinctly named parameters from which the one called
    [k] is taken out loses exactly that one, whatever sub-family [Q] of
    the parameters is counted. *)
Lemma length_filter_without (Q : param -> Prop) `{!∀ p, Decision (Q p)}
    k ps p :
  NoDup (p_name <$> ps) -> p ∈ ps -> p_name p = k -> Q p ->
  length (filter Q ps) =
    S (length (filter Q (params_without k ps))).
Proof.
  intros Hnd Hin Hk HQ.
  induction ps as [|q ps IH]; [by apply elem_of_nil in Hin|].
  rewrite fmap_cons in Hnd. apply NoDup_cons in Hnd as [Hq Hnd].
  unfold params_without in *.
  apply elem_of_cons in Hin as [->|Hin].
  - rewrite (filter_cons_False (fun q => p_name q ≠ k)) by (intros ?; done).
    rewrite filter_cons_True by done. cbn [length].
    fold (params_without k ps).
    rewrite filter_without_absent by (by rewrite <- Hk). done.
  - assert (p_name q ≠ k) as Hne.
    { intros Heq. apply Hq. rewrite Heq, <- Hk.
      by apply list_elem_of_fmap_2. }
    rewrite (filter_cons_True (fun q => p_name q ≠ k)) by done.
    rewrite !(filter_cons Q). destruct (decide (Q q)); cbn [length];
      rewrite IH by done; done.
Qed.

Lemma NoDup_names_filter (Q : param -> Prop) `{!∀ p, Decision (Q p)} ps :
  NoDup (p_name <$> ps) -> NoDup (p_name <$> filter Q ps).
Proof.
  intros Hnd. eapply sublist_NoDup; [exact Hnd|].
  apply fmap_sublist, sublist_filter.
Qed.

Lemma elem_of_names_without k k' ps :
  k' ≠ k ->
  k' ∈ p_name <$> params_without k ps <-> k' ∈ p_name <$> ps.
Proof.
  intros Hne. unfold params_without. rewrite !list_elem_of_fmap. split.
  - intros (q & Hq & [_ Hin]%list_elem_of_filter). by exists q.
  - intros (q & Hq & Hin). exists q. split; [done|].
    apply list_elem_of_filter. split; [congruence|done].
Qed.

Lemma not_elem_of_names_without k ps :
  k ∉ p_name <$> params_without k ps.
Proof.
  unfold params_without. rewrite list_elem_of_fmap.
  intros (q & Hq & [Hne _]%list_elem_of_filter). by apply Hne.
Qed.

End counting.

(** ** Arity read off the signature *)

Section arity.

Import register.

Implicit Types (self : register.t) (func : function).

(** [len(spec.defaults) if spec.defaults is not None else 0] is the
    number of parameters that have a default. *)
Lemma defaultcount_spec func :
  match defaults (getfullargspec func) with
  | Some ds => Z.of_nat (length ds)
  | None => 0
  end = default_count func.
Proof.
  unfold default_count. rewrite <- length_omap_default. cbn.
  by destruct (omap p_default (f_params func)).
Qed.

(** [len(spec.args)], less one when ['self' in spec.args], is the number
    of parameters other than the receiver. *)
Lemma argcount_spec func :
  wf_function func ->
  (if bool_decide ("self" ∈ args (getfullargspec func))
   then Z.of_nat (length (args (getfullargspec func))) - 1
   else Z.of_nat (length (args (getfullargspec func))))
  = param_count func.
Proof.
  intros Hwf. unfold param_count, non_receiver_params. cbn.
  rewrite length_fmap, (length_without "self" (f_params func) Hwf).
  repeat case_bool_decide; try done; lia.
Qed.

(** What [_get_nargs_count] returns when [nargs] is not given. *)
Lemma get_nargs_count_signature self func :
  nargs self = None -> wf_function func ->
  _get_nargs_count self func =
    Return (has_param "count" func,
            (Some (param_count func - default_count func),
             match f_varargs func with
             | Some _ => None
             | None =>
                 Some (param_count func - Z.b2z (has_param "count" func))
             end)).
Proof.
  intros Hn Hwf. unfold _get_nargs_count. rewrite Hn.
  cbv zeta. rewrite defaultcount_spec, (argcount_spec func Hwf). done.
Qed.

(** When the receiver has no default, the parameters with a default are
    all among the others. *)
Lemma default_count_non_receiver func :
  (forall p, p ∈ f_params func -> is_receiver p -> p_default p = None) ->
  default_count func = non_receiver_default_count func.
Proof.
  intros Hrecv. unfold default_count, non_receiver_default_count,
    non_receiver_params. f_equal. f_equal.
  unfold params_without. rewrite list_filter_filter.
  induction (f_params func) as [|p ps IH]; [done|].
  rewrite !filter_cons.
  destruct (decide (has_default p)) as [Hd|Hd].
  - rewrite decide_True; [rewrite IH; [done|]|].
    + intros q Hq. apply Hrecv. by right.
    + split; [done|]. intros Hp. destruct Hd as [d Hd].
      rewrite (Hrecv p) in Hd; [done|left|done].
  - rewrite decide_False by (by intros [? _]). apply IH.
    intros q Hq. apply Hrecv. by right.
Qed.

(** Taking a defaulted [count] out of a signature takes one from the
    parameter count and one from the default count. *)
Lemma param_count_without_count func d :
  wf_function func -> Param "count" (Some d) ∈ f_params func ->
  param_count func = param_count (without_param "count" func) + 1.
Proof.
  intros Hwf Hin. unfold param_count, non_receiver_params. cbn.
  unfold params_without at 1.
  erewrite (length_filter_without _ "count" (f_params func) _ Hwf Hin);
    [|done|done].
  unfold params_without. lia.
Qed.

Lemma default_count_without_count func d :
  wf_function func -> Param "count" (Some d) ∈ f_params func ->
  default_count func = default_count (without_param "count" func) + 1.
Proof.
  intros Hwf Hin. unfold default_count. cbn.
  erewrite (length_filter_without _ "count" (f_params func) _ Hwf Hin);
    [lia|done|]. cbn. by eexists.
Qed.

Lemma wf_without_param k func :
  wf_function func -> wf_function (without_param k func).
Proof. apply NoDup_names_filter. Qed.

Lemma has_param_without_same k func :
  has_param k (without_param k func) = false.
Proof.
  apply bool_decide_eq_false_2, not_elem_of_names_without.
Qed.

End arity.

(** ** Registration step by step *)

Section registration.

Import register.

Implicit Types (self : register.t) (func : function) (st : state).

Lemma for_in_setitem names cmd st :
  for_in names (fun name => cmd_dict_setitem name cmd) st =
    (Return tt, State (objects st) (bind_names names cmd (cmd_dict st))).
Proof.
  revert st. induction names as [|n names IH]; intros st.
  - by destruct st.
  - cbn. unfold mbind, M_bind, bind. cbn. by rewrite IH.
Qed.

Local Arguments for_in : simpl never.

Lemma lookup_bind_names names cmd (d : gmap string ref) k :
  bind_names names cmd d !! k =
    if bool_decide (k ∈ names) then Some cmd else d !! k.
Proof.
  revert d. induction names as [|n names IH]; intros d.
  - cbn. by rewrite bool_decide_eq_false_2 by apply not_elem_of_nil.
  - change (bind_names (n :: names) cmd d)
      with (bind_names names cmd (<[n:=cmd]> d)).
    rewrite IH. destruct (decide (k ∈ names)) as [Hin|Hnin].
    + rewrite !bool_decide_eq_true_2; [done|by right|done].
    + rewrite (bool_decide_eq_false_2 (k ∈ names)) by done.
      destruct (decide (k = n)) as [->|Hne].
      * rewrite bool_decide_eq_true_2 by left. apply lookup_insert_eq.
      * rewrite bool_decide_eq_false_2; [by rewrite lookup_insert_ne|].
        by intros [?|?]%elem_of_cons.
Qed.

(** [__call__] step by step: the names, then the arity, then the
    description; the state is touched only once all three are there. *)
Lemma call_unfold self func st :
  __call__ self func st =
    match registered_names self func with
    | [] => (Raise IndexError, st)
    | mainname :: _ =>
        match _get_nargs_count self func with
        | Raise e => (Raise e, st)
        | Return (count, nargs) =>
            match desc_of_doc (f_doc func) with
            | Raise e => (Raise e, st)
            | Return desc =>
                (Return func,
                 State
                   (objects st ++
                    [command_of self func mainname count nargs desc])
                   (bind_names (registered_names self func)
                      (length (objects st)) (cmd_dict st)))
            end
        end
    end.
Proof.
  unfold __call__, registered_names, desc_of_doc, mbind, M_bind, bind, lift.
  destruct (name self) as [[s|[|m l]]|]; cbn; try done.
  all: destruct (_get_nargs_count self func) as [[count nargs]|e];
    [|done].
  all: destruct (f_doc func) as [d|];
    [destruct (PyStr.splitlines d) as [|line rest]|]; try done.
  all: unfold new_Command; cbn; by rewrite for_in_setitem.
Qed.

Lemma get_nargs_count_returns self func :
  unpacks (nargs self) ->
  exists nargs',
    _get_nargs_count self func = Return (has_param "count" func, nargs').
Proof.
  unfold unpacks, _get_nargs_count, has_param.
  destruct (nargs self) as [[n|l]|]; intros Hl; try by eexists.
  apply bool_decide_unpack in Hl.
  destruct l as [|a [|b [|? ?]]]; try done. by eexists.
Qed.

Lemma get_nargs_count_raises self func l :
  nargs self = Some (NSeq l) -> length l ≠ 2%nat ->
  _get_nargs_count self func = Raise ValueError.
Proof.
  intros Hn Hl. unfold _get_nargs_count. rewrite Hn.
  by destruct l as [|a [|b [|? ?]]].
Qed.

Lemma desc_of_doc_returns doc :
  doc ≠ Some EmptyString -> exists desc, desc_of_doc doc = Return desc.
Proof.
  intros Hdoc. destruct doc as [d|]; cbn; [|by eexists].
  destruct (PyStr.splitlines d) as [|line rest] eqn:Hd; [|by eexists].
  apply splitlines_nil in Hd. by subst d.
Qed.

Lemma desc_of_doc_empty : desc_of_doc (Some EmptyString) = Raise IndexError.
Proof. reflexivity. Qed.

End registration.

(** ** The claims about arity *)

Section arity_claims.

Import register.

Implicit Types (self : register.t) (func : function) (st : state).

(** C1, as amended.  For a handler with no parameter named [count] and
    no variable-length parameter, arity read off the signature is
    [minargs = P - D] and [maxargs = P], where [P] counts the parameters
    other than the receiver and [D] counts the parameters with a default,
    the receiver's included; [D] is the number of defaults among the [P]
    whenever the receiver has none. *)
Theorem C1_arity_of_plain_signature self func :
  nargs self = None -> wf_function func ->
  has_param "count" func = false -> f_varargs func = None ->
  _get_nargs_count self func =
    Return (false, (Some (param_count func - default_count func),
                    Some (param_count func)))
  /\ ((forall p, p ∈ f_params func -> is_receiver p -> p_default p = None)
      -> default_count func = non_receiver_default_count func).
Proof.
  intros Hn Hwf Hcount Hvar. split.
  - rewrite (get_nargs_count_signature self func Hn Hwf), Hcount, Hvar.
    cbn. by rewrite Z.sub_0_r.
  - apply default_count_non_receiver.
Qed.

(** C2.  For a handler with a parameter named [count] that has a
    default, arity read off the signature reports count support, and its
    [minargs] and [maxargs] are those of the same signature with the
    [count] parameter taken out. *)
Theorem C2_count_is_transparent self func d :
  nargs self = None -> wf_function func ->
  Param "count" (Some d) ∈ f_params func ->
  exists minargs maxargs,
    _get_nargs_count self func = Return (true, (minargs, maxargs))
    /\ _get_nargs_count self (without_param "count" func)
       = Return (false, (minargs, maxargs)).
Proof.
  intros Hn Hwf Hin.
  rewrite (get_nargs_count_signature self func Hn Hwf).
  rewrite (get_nargs_count_signature self _ Hn
             (wf_without_param "count" func Hwf)).
  rewrite has_param_without_same.
  assert (has_param "count" func = true) as ->.
  { apply bool_decide_eq_true_2.
    by apply (list_elem_of_fmap_2 p_name) in Hin. }
  rewrite (param_count_without_count func d Hwf Hin).
  rewrite (default_count_without_count func d Hwf Hin).
  change (f_varargs (without_param "count" func)) with (f_varargs func).
  eexists _, _. split; [reflexivity|].
  do 3 f_equal; [f_equal; lia|].
  destruct (f_varargs func); [done|]. f_equal. cbn. lia.
Qed.

(** C7.  An explicit [nargs] decides the arity whatever the signature:
    an int [n] gives [minargs = maxargs = n], and a pair is returned as
    it is, its second component possibly [None] (unbounded). *)
Theorem C7_explicit_nargs self func :
  (forall n, nargs self = Some (NInt n) ->
     _get_nargs_count self func
     = Return (has_param "count" func, (Some n, Some n)))
  /\ (forall minargs maxargs,
        nargs self = Some (NSeq [minargs; maxargs]) ->
        _get_nargs_count self func
        = Return (has_param "count" func, (minargs, maxargs))).
Proof.
  split; [intros n Hn|intros minargs maxargs Hn];
    unfold _get_nargs_count; by rewrite Hn.
Qed.

(** C10.  For a handler with a variable-length parameter, arity read off
    the signature has [maxargs = None] (unbounded), also when a parameter
    named [count] is there; [minargs] is the number of parameters other
    than the receiver less the number of defaults. *)
Theorem C10_varargs_unbounded self func v :
  nargs self = None -> wf_function func -> f_varargs func = Some v ->
  _get_nargs_count self func =
    Return (has_param "count" func,
            (Some (param_count func - default_count func), None)).
Proof.
  intros Hn Hwf Hvar.
  by rewrite (get_nargs_count_signature self func Hn Hwf), Hvar.
Qed.

(** C3, as amended.  An [nargs] that is a sequence of more or fewer than
    two elements makes arity resolution raise [ValueError], and the call
    that registers raises and leaves the state as it was; a sequence of
    two elements is never refused, so a pair with its minimum above its
    maximum is returned as it is. *)
Theorem C3_nargs_sequence_raises_on_wrong_length self func st l :
  nargs self = Some (NSeq l) ->
  (length l ≠ 2%nat ->
     _get_nargs_count self func = Raise ValueError
     /\ (exists e, __call__ self func st = (Raise e, st))
     /\ (registered_names self func ≠ [] ->
         __call__ self func st = (Raise ValueError, st)))
  /\ (forall minargs maxargs, l = [minargs; maxargs] ->
        _get_nargs_count self func
        = Return (has_param "count" func, (minargs, maxargs))).
Proof.
  intros Hn. split.
  - intros Hl.
    pose proof (get_nargs_count_raises self func l Hn Hl) as Hraise.
    split; [done|]. rewrite call_unfold, Hraise.
    destruct (registered_names self func); [|by eauto].
    split; [by eauto|done].
  - intros minargs maxargs ->. unfold _get_nargs_count. by rewrite Hn.
Qed.

Lemma C3_nargs_sequence_raises_on_wrong_length_witness :
  (_get_nargs_count (with_nargs (NSeq [Some 1; Some 2; Some 3])) search
   = Raise ValueError
   /\ exists e,
        __call__ (with_nargs (NSeq [Some 1; Some 2; Some 3])) search
          initial_state
        = (Raise e, initial_state))
  /\ _get_nargs_count (with_nargs (NSeq [Some 0; None])) search
     = Return (false, (Some 0, None)).
Proof.
  split.
  - destruct (proj1 (C3_nargs_sequence_raises_on_wrong_length
                       (with_nargs (NSeq [Some 1; Some 2; Some 3])) search
                       initial_state [Some 1; Some 2; Some 3] eq_refl))
      as (Hget & Hcall & _); [cbn; lia|].
    split; [exact Hget|exact Hcall].
  - apply (proj2 (C3_nargs_sequence_raises_on_wrong_length
                    (with_nargs (NSeq [Some 0; None])) search
                    initial_state [Some 0; None] eq_refl)).
    reflexivity.
Defined.

(** C3 as stated fails: [nargs=(3, 1)], with its minimum above its
    maximum, is accepted; arity resolution returns the pair and the
    handler is registered. *)
Lemma C3_min_above_max_is_accepted :
  3 > 1
  /\ _get_nargs_count (with_nargs (NSeq [Some 3; Some 1])) search
     = Return (false, (Some 3, Some 1))
  /\ fst (__call__ (with_nargs (NSeq [Some 3; Some 1])) search
            initial_state)
     = Return search
  /\ cmd_dict (snd (__call__ (with_nargs (NSeq [Some 3; Some 1])) search
                      initial_state)) !! "search"
     = Some 0%nat.
Proof. split; [lia|]. by vm_compute. Qed.

Lemma wf_search : wf_function search.
Proof. unfold wf_function. decide_by_compute. Qed.

Lemma wf_openurl : wf_function openurl.
Proof. unfold wf_function. decide_by_compute. Qed.

Lemma wf_scroll : wf_function scroll.
Proof. unfold wf_function. decide_by_compute. Qed.

Lemma wf_reload : wf_function reload.
Proof. unfold wf_function. decide_by_compute. Qed.

Lemma C1_arity_of_plain_signature_witness :
  _get_nargs_count plain search = Return (false, (Some 1, Some 2))
  /\ ((forall p, p ∈ f_params search -> is_receiver p ->
         p_default p = None)
      -> default_count search = non_receiver_default_count search).
Proof.
  apply (C1_arity_of_plain_signature plain search);
    [reflexivity|apply wf_search|reflexivity|reflexivity].
Defined.

(** C1 as stated fails: in [def reload(self=None)] no parameter other
    than the receiver exists, so [P = 0] and none of the [P] has a
    default, yet [minargs] is [-1]: the receiver's default is counted. *)
Lemma C1_receiver_default_is_counted :
  nargs plain = None
  /\ wf_function reload
  /\ has_param "count" reload = false
  /\ f_varargs reload = None
  /\ param_count reload = 0
  /\ non_receiver_default_count reload = 0
  /\ _get_nargs_count plain reload = Return (false, (Some (-1), Some 0))
  /\ _get_nargs_count plain reload
     ≠ Return (false,
               (Some (param_count reload
                      - non_receiver_default_count reload),
                Some (param_count reload))).
Proof.
  split; [done|]. split; [apply wf_reload|]. by vm_compute.
Qed.

Lemma C2_count_is_transparent_witness :
  exists minargs maxargs,
    _get_nargs_count plain openurl = Return (true, (minargs, maxargs))
    /\ _get_nargs_count plain (without_param "count" openurl)
       = Return (false, (minargs, maxargs)).
Proof.
  apply (C2_count_is_transparent plain openurl PyNone);
    [reflexivity|apply wf_openurl|].
  decide_by_compute.
Defined.

Lemma C7_explicit_nargs_witness :
  _get_nargs_count (with_nargs (NInt 2)) search
  = Return (false, (Some 2, Some 2))
  /\ _get_nargs_count (with_nargs (NSeq [Some 1; None])) openurl
     = Return (true, (Some 1, None)).
Proof.
  split.
  - apply (proj1 (C7_explicit_nargs (with_nargs (NInt 2)) search) 2).
    reflexivity.
  - apply (proj2 (C7_explicit_nargs (with_nargs (NSeq [Some 1; None]))
                    openurl) (Some 1) None).
    reflexivity.
Defined.

Lemma C10_varargs_unbounded_witness :
  has_param "count" scroll = true
  /\ _get_nargs_count plain scroll = Return (true, (Some 0, None)).
Proof.
  split; [reflexivity|].
  apply (C10_varargs_unbounded plain scroll "directions");
    [reflexivity|apply wf_scroll|reflexivity].
Defined.

End arity_claims.

(** ** The claims about registration *)

Section registration_claims.

Import register.

Implicit Types (self : register.t) (func : function) (st : state).

Lemma decorate_unfold instance name nargs maxsplit hide completion modes
    not_modes func st :
  is_not_None modes && is_not_None not_modes = false ->
  decorate instance name nargs maxsplit hide completion modes not_modes
    func st
  = __call__
      {| register.name := name; register.maxsplit := maxsplit;
         register.hide := hide; register.nargs := nargs;
         register.instance := instance;
         register.completion := completion; register.modes := modes;
         register.not_modes := not_modes |} func st.
Proof.
  intros Hm. unfold decorate, __init__, mbind, M_bind, bind.
  by rewrite Hm.
Qed.

(** A call that gets its names, its arity and its description returns
    the function it was given, adds one [Command] to the store and binds
    every name to it. *)
Lemma call_returns self func st :
  registered_names self func ≠ [] -> unpacks (nargs self) ->
  f_doc func ≠ Some EmptyString ->
  exists mainname nargs' desc,
    head (registered_names self func) = Some mainname
    /\ _get_nargs_count self func = Return (has_param "count" func, nargs')
    /\ desc_of_doc (f_doc func) = Return desc
    /\ __call__ self func st =
         (Return func,
          State
            (objects st ++
             [command_of self func mainname (has_param "count" func)
                nargs' desc])
            (bind_names (registered_names self func)
               (length (objects st)) (cmd_dict st))).
Proof.
  intros Hnames Hnargs Hdoc.
  destruct (get_nargs_count_returns self func Hnargs) as [nargs' Hget].
  destruct (desc_of_doc_returns (f_doc func) Hdoc) as [desc Hdesc].
  rewrite call_unfold, Hget, Hdesc.
  destruct (registered_names self func) as [|mainname rest]; [done|].
  by exists mainname, nargs', desc.
Qed.

(** C6.  A decorator given both [modes] and [not_modes] raises
    [ValueError] when it is made: the handler is never registered and
    the state, [cmd_dict] included, stays as it was. *)
Theorem C6_modes_and_not_modes_raise instance name nargs maxsplit hide
    completion (modes not_modes : list string) func st :
  __init__ instance name nargs maxsplit hide completion (Some modes)
    (Some not_modes) st
  = (Raise ValueError, st)
  /\ decorate instance name nargs maxsplit hide completion (Some modes)
       (Some not_modes) func st
     = (Raise ValueError, st).
Proof.
  assert (__init__ instance name nargs maxsplit hide completion (Some modes)
            (Some not_modes) st = (Raise ValueError, st)) as Hinit.
  { unfold __init__. cbn [is_not_None andb]. reflexivity. }
  split; [exact Hinit|].
  unfold decorate, mbind, M_bind, bind. by rewrite Hinit.
Qed.

(** C8.  A call that registers a handler under a list of three distinct
    names creates one [Command], whose name is the first of the three
    and whose arity and description are the ones resolved for the
    handler, and binds each of the three names to that one object; no
    other key of [cmd_dict] changes, and when none of the three was a
    key before, [cmd_dict] grows by three entries. *)
Theorem C8_three_names_share_one_command self func st a b c :
  name self = Some (NameList [a; b; c]) -> NoDup [a; b; c] ->
  unpacks (nargs self) -> f_doc func ≠ Some EmptyString ->
  exists nargs' desc st',
    _get_nargs_count self func = Return (has_param "count" func, nargs')
    /\ desc_of_doc (f_doc func) = Return desc
    /\ __call__ self func st = (Return func, st')
    /\ objects st' =
         objects st ++
         [command_of self func a (has_param "count" func) nargs' desc]
    /\ objects st' !! length (objects st) =
         Some (command_of self func a (has_param "count" func) nargs'
                 desc)
    /\ cmd_dict st' !! a = Some (length (objects st))
    /\ cmd_dict st' !! b = Some (length (objects st))
    /\ cmd_dict st' !! c = Some (length (objects st))
    /\ (forall k, k ∉ [a; b; c] -> cmd_dict st' !! k = cmd_dict st !! k)
    /\ dom (cmd_dict st') = {[a; b; c]} ∪ dom (cmd_dict st)
    /\ (cmd_dict st !! a = None -> cmd_dict st !! b = None ->
        cmd_dict st !! c = None ->
        size (cmd_dict st') = (size (cmd_dict st) + 3)%nat).
Proof.
  intros Hname Hnd Hnargs Hdoc.
  assert (registered_names self func = [a; b; c]) as Hnames.
  { unfold registered_names. by rewrite Hname. }
  destruct (call_returns self func st) as
    (mainname & nargs' & desc & Hmain & Hget & Hdesc & Hcall);
    [by rewrite Hnames|done|done|].
  rewrite Hnames in Hmain, Hcall. injection Hmain as <-.
  eexists nargs', desc, _. split; [done|]. split; [done|].
  split; [exact Hcall|]. cbn [objects cmd_dict].
  split; [done|]. split.
  { rewrite lookup_app_r by done. by rewrite Nat.sub_diag. }
  rewrite !lookup_bind_names.
  apply NoDup_cons in Hnd as [Hab Hnd]. apply NoDup_cons in Hnd as [Hbc _].
  apply not_elem_of_cons in Hab as [Hab Hac].
  apply not_elem_of_cons in Hac as [Hac _].
  apply not_elem_of_cons in Hbc as [Hbc _].
  split; [by rewrite bool_decide_eq_true_2 by left|].
  split; [by rewrite bool_decide_eq_true_2 by (right; left)|].
  split; [by rewrite bool_decide_eq_true_2 by (do 2 right; left)|].
  split.
  { intros k Hk. rewrite lookup_bind_names.
    by rewrite bool_decide_eq_false_2. }
  unfold bind_names. cbn [foldl]. split.
  - rewrite !dom_insert_L. apply set_eq. intros k.
    rewrite !elem_of_union, !elem_of_singleton. tauto.
  - intros Ha Hb Hc.
    rewrite (map_size_insert_None c) by (by rewrite !lookup_insert_ne).
    rewrite (map_size_insert_None b) by (by rewrite lookup_insert_ne).
    rewrite (map_size_insert_None a) by done. lia.
Qed.

Lemma C8_three_names_share_one_command_witness :
  exists cmd st',
    __call__ (with_names ["s"; "find"; "search"]) search initial_state
    = (Return search, st')
    /\ objects st' = [cmd]
    /\ c_name cmd = "s"
    /\ c_nargs cmd = (Some 1, Some 2)
    /\ c_desc cmd = "Search for a text on the current page"
    /\ cmd_dict st' !! "s" = Some 0%nat
    /\ cmd_dict st' !! "find" = Some 0%nat
    /\ cmd_dict st' !! "search" = Some 0%nat
    /\ size (cmd_dict st') = 3%nat.
Proof.
  destruct (C8_three_names_share_one_command
              (with_names ["s"; "find"; "search"]) search initial_state
              "s" "find" "search")
    as (nargs' & desc & st' & Hget & Hdesc & Hcall & Hobjs & _ & Hs & Hfind
        & Hsearch & _ & _ & Hsize);
    [reflexivity|decide_by_compute|exact I|discriminate|].
  injection Hget as <-. injection Hdesc as <-.
  eexists _, st'. split; [exact Hcall|]. split; [exact Hobjs|].
  repeat split; try done. by apply Hsize.
Defined.

(** What [desc_of_doc] returns for a docstring other than the empty
    string. *)
Lemma desc_of_doc_first_line doc :
  doc ≠ Some EmptyString ->
  desc_of_doc doc =
    Return match doc with
           | Some d => PyStr.rstrip "." (PyStr.strip (first_line d))
           | None => EmptyString
           end.
Proof.
  intros Hdoc. destruct doc as [d|]; [|done]. unfold desc_of_doc, first_line.
  destruct (PyStr.splitlines d) as [|line rest] eqn:Hd; [|done].
  apply splitlines_nil in Hd. by subst d.
Qed.

(** C5, as amended.  A call that registers a handler whose docstring is
    not the empty string stores, as description, the first line of the
    docstring trimmed of surrounding white space and then of all its
    trailing periods, and the empty string when there is no docstring:
    the first line is the description between leading white space and a
    tail of periods followed by white space, and the description neither
    starts with white space nor ends with a period. *)
Theorem C5_registered_description self func st :
  registered_names self func ≠ [] -> unpacks (nargs self) ->
  f_doc func ≠ Some EmptyString ->
  exists cmd st',
    __call__ self func st = (Return func, st')
    /\ objects st' !! length (objects st) = Some cmd
    /\ (forall name, name ∈ registered_names self func ->
          cmd_dict st' !! name = Some (length (objects st)))
    /\ c_desc cmd =
         match f_doc func with
         | Some d => PyStr.rstrip "." (PyStr.strip (first_line d))
         | None => EmptyString
         end
    /\ (forall d, f_doc func = Some d ->
          (exists ws periods ws',
             first_line d = ws +:+ c_desc cmd +:+ periods +:+ ws'
             /\ all_chars PyStr.is_space ws = true
             /\ all_chars is_period periods = true
             /\ all_chars PyStr.is_space ws' = true)
          /\ (forall ch, first_char (c_desc cmd) = Some ch ->
                PyStr.is_space ch = false)
          /\ (forall ch, last_char (c_desc cmd) = Some ch ->
                is_period ch = false)).
Proof.
  intros Hnames Hnargs Hdoc.
  destruct (call_returns self func st Hnames Hnargs Hdoc) as
    (mainname & nargs' & desc & _ & _ & Hdesc & Hcall).
  rewrite (desc_of_doc_first_line _ Hdoc) in Hdesc. injection Hdesc as <-.
  eexists _, _. split; [exact Hcall|]. cbn [objects cmd_dict c_desc].
  split; [|split; [|split; [|]]].
  - rewrite lookup_app_r by done. by rewrite Nat.sub_diag.
  - intros name Hin. rewrite lookup_bind_names.
    by rewrite bool_decide_eq_true_2.
  - done.
  - intros d Hd. cbn [command_of c_desc]. rewrite Hd.
    apply strip_rstrip_period.
Qed.

Lemma C5_registered_description_witness :
  exists cmd st',
    __call__ plain search initial_state = (Return search, st')
    /\ objects st' !! 0%nat = Some cmd
    /\ cmd_dict st' !! "search" = Some 0%nat
    /\ c_desc cmd = "Search for a text on the current page".
Proof.
  destruct (C5_registered_description plain search initial_state)
    as (cmd & st' & Hcall & Hobj & Hnames & Hdesc & _);
    [discriminate|exact I|discriminate|].
  exists cmd, st'. split; [exact Hcall|]. split; [exact Hobj|].
  split; [|exact Hdesc]. apply Hnames. left.
Defined.

(** C5 as stated fails: of the three periods that end the first line of
    [openurl]'s docstring the stored description keeps none, where
    stripping a single one would keep two. *)
Lemma C5_all_trailing_periods_are_stripped :
  fst (__call__ plain openurl initial_state) = Return openurl
  /\ c_desc <$> objects (snd (__call__ plain openurl initial_state))
                  !! 0%nat
     = Some "Open an url in the current/[count]th tab"
  /\ spec_description (f_doc openurl)
     = "Open an url in the current/[count]th tab.."
  /\ c_desc <$> objects (snd (__call__ plain openurl initial_state))
                  !! 0%nat
     ≠ Some (spec_description (f_doc openurl)).
Proof. by vm_compute. Qed.

(** C4.  [@register(name=["q", "quit"], hide=True)] above a handler
    whose docstring is the empty string raises [IndexError], from
    [splitlines()[0]], and registers nothing; above a handler without a
    docstring it registers one hidden [Command] with the empty
    description under both ["q"] and ["quit"]. *)
Theorem C4_quit_alias_registration fname params varargs st :
  decorate None (Some (NameList ["q"; "quit"])) None (-1) true None None
    None (Function fname params varargs (Some EmptyString)) st
  = (Raise IndexError, st)
  /\ exists cmd st',
       decorate None (Some (NameList ["q"; "quit"])) None (-1) true None
         None None (Function fname params varargs None) st
       = (Return (Function fname params varargs None), st')
       /\ cmd_dict st' !! "q" = Some (length (objects st))
       /\ cmd_dict st' !! "quit" = Some (length (objects st))
       /\ objects st' !! length (objects st) = Some cmd
       /\ c_hide cmd = true
       /\ c_desc cmd = EmptyString.
Proof.
  rewrite !decorate_unfold by done. split.
  - rewrite call_unfold.
    match goal with
    | |- context [_get_nargs_count ?self ?func] =>
        destruct (get_nargs_count_returns self func I) as [nargs' ->]
    end.
    done.
  - match goal with
    | |- context [__call__ ?self ?func st] =>
        destruct (call_returns self func st) as
          (mainname & nargs' & desc & _ & _ & Hdesc & ->);
          [discriminate|exact I|discriminate|]
    end.
    injection Hdesc as <-. eexists _, _. split; [done|].
    cbn [objects cmd_dict]. rewrite !lookup_bind_names.
    rewrite lookup_app_r by done. rewrite Nat.sub_diag.
    done.
Qed.

(** C9.  A call that returns returns the function it was given, and the
    [Command] it stores holds that function as handler; the call
    returns for every decorator whose name is not the empty list and
    whose [nargs] unpacks, unless the docstring of the handler is the
    empty string: then it raises [IndexError] and leaves the state as it
    was. *)
Theorem C9_call_returns_the_handler self func st :
  (forall r st', __call__ self func st = (Return r, st') ->
     r = func
     /\ cmd_dict st' = bind_names (registered_names self func)
                         (length (objects st)) (cmd_dict st)
     /\ exists cmd,
          objects st' = objects st ++ [cmd] /\ c_handler cmd = func)
  /\ (registered_names self func ≠ [] -> unpacks (nargs self) ->
      f_doc func ≠ Some EmptyString ->
      exists st', __call__ self func st = (Return func, st'))
  /\ (f_doc func = Some EmptyString ->
      (exists e, __call__ self func st = (Raise e, st))
      /\ (registered_names self func ≠ [] -> unpacks (nargs self) ->
          __call__ self func st = (Raise IndexError, st))).
Proof.
  split; [|split].
  - intros r st'. rewrite call_unfold.
    destruct (registered_names self func) as [|mainname rest]; [done|].
    destruct (_get_nargs_count self func) as [[count nargs']|e]; [|done].
    destruct (desc_of_doc (f_doc func)) as [desc|e]; [|done].
    intros [= <- <-]. split; [done|]. split; [done|]. by eexists.
  - intros Hnames Hnargs Hdoc.
    destruct (call_returns self func st Hnames Hnargs Hdoc) as
      (mainname & nargs' & desc & _ & _ & _ & Hcall).
    by eexists.
  - intros Hdoc. rewrite call_unfold, Hdoc. split.
    + destruct (registered_names self func) as [|mainname rest];
        [by eexists|].
      destruct (_get_nargs_count self func) as [[count nargs']|e];
        by eexists.
    + intros Hnames Hnargs.
      destruct (get_nargs_count_returns self func Hnargs) as [nargs' ->].
      by destruct (registered_names self func).
Qed.

Lemma C9_call_returns_the_handler_witness :
  (exists st', __call__ plain search initial_state = (Return search, st'))
  /\ __call__ plain quit initial_state = (Raise IndexError, initial_state).
Proof.
  split.
  - apply (C9_call_returns_the_handler plain search initial_state);
      [discriminate|exact I|discriminate].
  - apply (C9_call_returns_the_handler plain quit initial_state);
      [reflexivity|discriminate|exact I].
Defined.

End registration_claims.

(** ** The string functions on sample inputs *)

Section examples.

Import PyStr.

Example splitlines_empty : splitlines EmptyString = [].
Proof. reflexivity. Qed.

Example splitlines_blank_line : splitlines LF = [EmptyString].
Proof. reflexivity. Qed.

Example splitlines_crlf :
  splitlines ("Quit." +:+ CR +:+ LF +:+ LF +:+ "Bye" +:+ LF)
  = ["Quit."; EmptyString; "Bye"].
Proof. reflexivity. Qed.

Example strip_rstrip_quit :
  rstrip "." (strip ("  Quit qutebrowser.  " +:+ LF)) = "Quit qutebrowser".
Proof. reflexivity. Qed.

Example rstrip_keeps_inner_space : rstrip "." "a.b. ." = "a.b. ".
Proof. reflexivity. Qed.

Example lower_openurl : lower "OpenURL" = "openurl".
Proof. reflexivity. Qed.

End examples.

(** ** Further properties of registration *)

Section registration_properties.

Import register.

Implicit Types (self : register.t) (func : function) (st : state).

Lemma get_nargs_count_not_unpacks self func :
  unpacks (nargs self) = false ->
  _get_nargs_count self func = Raise ValueError.
Proof.
  unfold unpacks. destruct (nargs self) as [[n|l]|] eqn:Hn; try done.
  intros Hl%bool_decide_eq_false. by apply (get_nargs_count_raises _ _ l).
Qed.

(** The two ways a call can go: it raises, the state is as it was and
    one of the three steps failed; or it returns the function, with one
    new [Command] in the store and the names bound to it. *)
Lemma call_cases self func st :
  (¬ registers self func /\ exists e, __call__ self func st = (Raise e, st))
  \/ (registers self func
      /\ exists mainname nargs' desc,
           head (registered_names self func) = Some mainname
           /\ __call__ self func st =
                (Return func,
                 State
                   (objects st ++
                    [command_of self func mainname (has_param "count" func)
                       nargs' desc])
                   (bind_names (registered_names self func)
                      (length (objects st)) (cmd_dict st)))).
Proof.
  destruct (decide (registered_names self func = [])) as [Hnames|Hnames].
  { left. split; [by intros [? _]|]. rewrite call_unfold, Hnames. eauto. }
  destruct (unpacks (nargs self)) eqn:Hnargs; cycle 1.
  { left. split; [intros (_ & Hu & _); by rewrite Hnargs in Hu|].
    rewrite call_unfold, (get_nargs_count_not_unpacks _ _ Hnargs).
    destruct (registered_names self func); eauto. }
  destruct (decide (f_doc func = Some EmptyString)) as [Hdoc|Hdoc].
  { left. split; [by intros (_ & _ & ?)|].
    destruct (get_nargs_count_returns self func) as [nargs' Hget];
      [by rewrite Hnargs|].
    rewrite call_unfold, Hget, Hdoc.
    destruct (registered_names self func); eauto. }
  right. assert (unpacks (nargs self)) as Hu by (by rewrite Hnargs).
  split; [done|].
  destruct (call_returns self func st Hnames Hu Hdoc) as
    (mainname & nargs' & desc & Hmain & _ & _ & Hcall).
  by exists mainname, nargs', desc.
Qed.

(** X1.  A registration that raises leaves the state as it was: whether
    [__init__] refuses the arguments or [__call__] fails on the name, the
    arity or the docstring, [cmd_dict] and the store are untouched. *)
Theorem raise_leaves_state_unchanged instance name nargs maxsplit hide
    completion modes not_modes self func st e st' :
  (__call__ self func st = (Raise e, st') -> st' = st)
  /\ (decorate instance name nargs maxsplit hide completion modes not_modes
        func st = (Raise e, st') -> st' = st).
Proof.
  assert (forall self0, __call__ self0 func st = (Raise e, st') -> st' = st)
    as Hcall.
  { intros self0 Hraise.
    destruct (call_cases self0 func st) as
      [(_ & e' & Hc)|(_ & m & n & d & _ & Hc)];
      rewrite Hc in Hraise; [by injection Hraise|done]. }
  split; [apply Hcall|].
  destruct (is_not_None modes && is_not_None not_modes) eqn:Hm.
  - unfold decorate, __init__, mbind, M_bind, bind. rewrite Hm.
    by intros [= _ <-].
  - rewrite decorate_unfold by done. apply Hcall.
Qed.

Lemma raise_leaves_state_unchanged_witness :
  snd (__call__ plain quit initial_state) = initial_state
  /\ snd (decorate None None (Some (NSeq [Some 1])) (-1) false None None
            None search initial_state) = initial_state.
Proof.
  split.
  - apply (proj1 (raise_leaves_state_unchanged None None None (-1) false
                    None None None plain quit initial_state IndexError _)).
    reflexivity.
  - apply (proj2 (raise_leaves_state_unchanged None None
                    (Some (NSeq [Some 1])) (-1) false None None None plain
                    search initial_state ValueError _)).
    reflexivity.
Defined.

(** X2.  [__call__] fails in three ways only, tried in this order: an
    empty list of names raises [IndexError], an [nargs] that does not
    unpack raises [ValueError], a docstring that is the empty string
    raises [IndexError]; in every other case the call returns the
    function. *)
Theorem call_outcome self func st :
  fst (__call__ self func st) =
    match registered_names self func with
    | [] => Raise IndexError
    | _ :: _ =>
        if unpacks (nargs self)
        then if decide (f_doc func = Some EmptyString)
             then Raise IndexError
             else Return func
        else Raise ValueError
    end.
Proof.
  rewrite call_unfold.
  destruct (registered_names self func) as [|mainname rest]; [done|].
  destruct (unpacks (nargs self)) eqn:Hnargs.
  - destruct (get_nargs_count_returns self func) as [nargs' ->];
      [by rewrite Hnargs|].
    destruct (decide (f_doc func = Some EmptyString)) as [->|Hdoc]; [done|].
    by destruct (desc_of_doc_returns (f_doc func) Hdoc) as [desc ->].
  - by rewrite (get_nargs_count_not_unpacks _ _ Hnargs).
Qed.




(** X4.  A call never rewrites what is there: the store only grows, by
    one [Command] at most, so every reference keeps its object; no key of
    [cmd_dict] is removed; and a key that is not one of the registered
    names keeps its binding. *)
Theorem call_frame self func st :
  objects st `prefix_of` objects (snd (__call__ self func st))
  /\ (length (objects (snd (__call__ self func st)))
      <= S (length (objects st)))%nat
  /\ (forall r c, objects st !! r = Some c ->
        objects (snd (__call__ self func st)) !! r = Some c)
  /\ (forall k, is_Some (cmd_dict st !! k) ->
        is_Some (cmd_dict (snd (__call__ self func st)) !! k))
  /\ (forall k, k ∉ registered_names self func ->
        cmd_dict (snd (__call__ self func st)) !! k = cmd_dict st !! k).
Proof.
  destruct (call_cases self func st) as
    [(_ & e & ->)|(_ & m & n & d & _ & ->)]; cbn [snd objects cmd_dict].
  - repeat split; try done. lia.
  - split; [by eexists|]. split; [rewrite length_app; cbn; lia|].
    split; [intros r c Hr; by apply lookup_app_l_Some|].
    split; intros k Hk; rewrite lookup_bind_names.
    + by case_bool_decide.
    + by rewrite bool_decide_eq_false_2.
Qed.

(** X5.  The last registration wins: after two completed registrations
    every name of the second is bound to the second [Command], also a
    name that the first had bound; the first [Command] stays in the
    store, and a name that only the first registered still refers to
    it. *)
Theorem second_registration_wins self1 func1 self2 func2 st :
  registers self1 func1 -> registers self2 func2 ->
  exists st1 st2 cmd1 cmd2,
    __call__ self1 func1 st = (Return func1, st1)
    /\ __call__ self2 func2 st1 = (Return func2, st2)
    /\ objects st2 = objects st ++ [cmd1; cmd2]
    /\ c_handler cmd1 = func1 /\ c_handler cmd2 = func2
    /\ (forall k, k ∈ registered_names self2 func2 ->
          cmd_dict st2 !! k = Some (S (length (objects st))))
    /\ (forall k, k ∈ registered_names self1 func1 ->
          k ∉ registered_names self2 func2 ->
          cmd_dict st2 !! k = Some (length (objects st))).
Proof.
  intros Hr1 Hr2.
  destruct (call_cases self1 func1 st) as
    [(Hn & _)|(_ & m1 & n1 & d1 & _ & Hc1)]; [done|].
  match type of Hc1 with _ = (_, ?s) => set (st1 := s) in * end.
  destruct (call_cases self2 func2 st1) as
    [(Hn & _)|(_ & m2 & n2 & d2 & _ & Hc2)]; [done|].
  eexists st1, _, _, _. split; [exact Hc1|].
  split; [exact Hc2|]. subst st1. cbn [objects cmd_dict].
  split; [by rewrite <- app_assoc|]. split; [done|]. split; [done|].
  rewrite length_app. cbn [length]. rewrite Nat.add_1_r.
  split; intros k Hk.
  - rewrite lookup_bind_names. by rewrite bool_decide_eq_true_2.
  - intros Hk2. rewrite !lookup_bind_names.
    rewrite bool_decide_eq_false_2 by done.
    by rewrite bool_decide_eq_true_2.
Qed.

Lemma second_registration_wins_witness :
  exists st1 st2 cmd1 cmd2,
    __call__ (with_names ["s"; "find"]) search initial_state
    = (Return search, st1)
    /\ __call__ (with_names ["s"; "o"]) openurl st1 = (Return openurl, st2)
    /\ objects st2 = [cmd1; cmd2]
    /\ c_handler cmd1 = search /\ c_handler cmd2 = openurl
    /\ cmd_dict st2 !! "s" = Some 1%nat
    /\ cmd_dict st2 !! "find" = Some 0%nat.
Proof.
  destruct (second_registration_wins (with_names ["s"; "find"]) search
              (with_names ["s"; "o"]) openurl initial_state)
    as (st1 & st2 & cmd1 & cmd2 & Hc1 & Hc2 & Hobjs & Hh1 & Hh2 & Hsnd
        & Hfst).
  { repeat split; [discriminate|discriminate]. }
  { repeat split; [discriminate|discriminate]. }
  exists st1, st2, cmd1, cmd2. repeat split; try done.
  - apply Hsnd. decide_by_compute.
  - apply Hfst; decide_by_compute.
Defined.

(** X10.  No [Command] made through the decorator is restricted by both
    [modes] and [not_modes]: when the [Command]s of the store are
    restricted by one of the two at most, they still are after any
    registration. *)
Theorem decorate_keeps_modes_exclusive instance name nargs maxsplit hide
    completion modes not_modes func st :
  Forall modes_exclusive (objects st) ->
  Forall modes_exclusive
    (objects (snd (decorate instance name nargs maxsplit hide completion
                     modes not_modes func st))).
Proof.
  intros Hst. destruct (is_not_None modes && is_not_None not_modes) eqn:Hm.
  - unfold decorate, __init__, mbind, M_bind, bind. by rewrite Hm.
  - rewrite decorate_unfold by done.
    match goal with
    | |- context [__call__ ?s func st] =>
        destruct (call_cases s func st) as
          [(_ & e & ->)|(_ & m & n & d & _ & ->)]
    end; [done|].
    cbn [snd objects]. apply Forall_app. split; [done|].
    apply Forall_singleton. unfold modes_exclusive. cbn.
    destruct modes, not_modes; try done; (by left) || (by right).
Qed.

Lemma decorate_keeps_modes_exclusive_witness :
  Forall modes_exclusive
    (objects (snd (decorate None None None (-1) false None
                     (Some ["normal"]) None search initial_state))).
Proof.
  apply (decorate_keeps_modes_exclusive None None None (-1) false None
           (Some ["normal"]) None search initial_state).
  vm_compute. constructor.
Defined.

End registration_properties.

(** ** Further properties of the arity *)

Section arity_properties.

Import register.

Implicit Types (self : register.t) (func : function).

(** X7.  The arity does not depend on the order of the parameters: the
    receiver and [count] are found by name wherever they stand, and the
    defaults are only counted. *)
Theorem arity_ignores_parameter_order self func func' :
  f_params func ≡ₚ f_params func' -> f_varargs func = f_varargs func' ->
  _get_nargs_count self func = _get_nargs_count self func'.
Proof.
  intros Hperm Hvar. unfold _get_nargs_count. cbv zeta.
  rewrite !defaultcount_spec. cbn [args varargs getfullargspec].
  assert (forall k, bool_decide (k ∈ p_name <$> f_params func)
                    = bool_decide (k ∈ p_name <$> f_params func')) as Hin.
  { intros k. apply bool_decide_ext. by rewrite Hperm. }
  assert (default_count func = default_count func') as Hdef.
  { unfold default_count. by rewrite Hperm. }
  rewrite !Hin, !length_fmap, Hdef, Hvar.
  by rewrite (Permutation_length Hperm).
Qed.

Lemma arity_ignores_parameter_order_witness :
  _get_nargs_count plain search = _get_nargs_count plain search_reordered.
Proof.
  apply (arity_ignores_parameter_order plain search search_reordered);
    [|reflexivity].
  cbn [f_params search search_reordered].
  etransitivity; [apply Permutation_cons_append|]. reflexivity.
Defined.

Lemma param_count_count func :
  has_param "count" func = true -> 1 <= param_count func.
Proof.
  intros Hc%bool_decide_eq_true.
  apply list_elem_of_fmap in Hc as (p & Hp & Hin).
  assert (p ∈ non_receiver_params func) as Hnr.
  { apply list_elem_of_filter. split; [|done]. by rewrite <- Hp. }
  unfold param_count. destruct (non_receiver_params func); [|cbn; lia].
  by apply elem_of_nil in Hnr.
Qed.

(** X8.  Arity read off a signature without variable-length parameter:
    [maxargs] is never negative; [minargs] is at most [maxargs] exactly
    when a present [count] comes with a default somewhere in the
    signature, the assumption the code states in its comment; and
    [minargs] is not negative when the receiver has no default. *)
Theorem signature_arity_bounds self func :
  nargs self = None -> wf_function func -> f_varargs func = None ->
  exists minargs maxargs,
    _get_nargs_count self func
    = Return (has_param "count" func, (Some minargs, Some maxargs))
    /\ 0 <= maxargs
    /\ (minargs <= maxargs
        <-> (has_param "count" func = true -> 0 < default_count func))
    /\ ((forall p, p ∈ f_params func -> is_receiver p -> p_default p = None)
        -> 0 <= minargs).
Proof.
  intros Hn Hwf Hvar.
  rewrite (get_nargs_count_signature self func Hn Hwf), Hvar.
  eexists _, _. split; [reflexivity|].
  pose proof (param_count_count func) as Hcount.
  assert (0 <= param_count func) as Hpos by (unfold param_count; lia).
  destruct (has_param "count" func); cbn [Z.b2z].
  - split; [specialize (Hcount eq_refl); lia|]. split.
    + split; [lia|]. intros Hd. specialize (Hd eq_refl). lia.
    + intros Hrecv. rewrite (default_count_non_receiver func Hrecv).
      unfold non_receiver_default_count, param_count.
      pose proof (length_filter has_default (non_receiver_params func)). lia.
  - split; [lia|]. split.
    + assert (0 <= default_count func) by (unfold default_count; lia).
      split; [done|]. lia.
    + intros Hrecv. rewrite (default_count_non_receiver func Hrecv).
      unfold non_receiver_default_count, param_count.
      pose proof (length_filter has_default (non_receiver_params func)). lia.
Qed.

Lemma wf_zoom : wf_function zoom.
Proof. unfold wf_function. decide_by_compute. Qed.

Lemma signature_arity_bounds_witness :
  exists minargs maxargs,
    _get_nargs_count plain zoom = Return (true, (Some minargs, Some maxargs))
    /\ 0 <= maxargs
    /\ ¬ minargs <= maxargs.
Proof.
  destruct (signature_arity_bounds plain zoom eq_refl wf_zoom eq_refl)
    as (minargs & maxargs & Hget & Hmax & Hle & _).
  exists minargs, maxargs. split; [exact Hget|]. split; [exact Hmax|].
  intros Hmin. apply Hle in Hmin; [|reflexivity]. vm_compute in Hmin.
  discriminate.
Defined.

(** X12.  [_get_nargs_count] raises nothing but [ValueError], and raises
    it exactly when [nargs] is a sequence that does not unpack into two;
    when it returns, the count flag is ['count' in spec.args], with or
    without [nargs]. *)
Theorem get_nargs_count_outcome self func :
  match _get_nargs_count self func with
  | Return (count, _) =>
      unpacks (nargs self) = true /\ count = has_param "count" func
  | Raise e => unpacks (nargs self) = false /\ e = ValueError
  end.
Proof.
  destruct (unpacks (nargs self)) eqn:Hu.
  - destruct (get_nargs_count_returns self func) as [nargs' ->];
      [by rewrite Hu|done].
  - by rewrite (get_nargs_count_not_unpacks _ _ Hu).
Qed.

End arity_properties.

(** ** Further properties of names and descriptions *)

Section name_and_description_properties.

Import PyStr register.

Implicit Types (self : register.t) (func : function) (st : state).






Lemma all_chars_app q s t :
  all_chars q (s +:+ t) = all_chars q s && all_chars q t.
Proof.
  induction s as [|c s IH]; [done|].
  change (q c && all_chars q (s +:+ t)
          = q c && all_chars q s && all_chars q t).
  by rewrite IH, andb_assoc.
Qed.

Lemma all_chars_of_list q l :
  all_chars q (string_of_list_ascii l) = forallb q l.
Proof. induction l as [|c l IH]; [done|]. cbn. by rewrite IH. Qed.

Lemma forallb_rev q (l : list ascii) : forallb q (rev l) = forallb q l.
Proof.
  induction l as [|c l IH]; [done|].
  cbn. rewrite forallb_app, IH. cbn. by rewrite andb_true_r, andb_comm.
Qed.

(** The first line that [splitlines] returns ends where the first line
    boundary stands. *)
Lemma splitlines_from_boundary acc line c rest :
  all_chars not_linebreak line = true -> is_linebreak c = true ->
  head (splitlines_from acc (line +:+ String c rest))
  = Some (string_of_list_ascii (rev acc ++ list_ascii_of_string line)).
Proof.
  intros Hline Hc. revert acc.
  induction line as [|a line IH]; intros acc.
  - change (EmptyString +:+ String c rest) with (String c rest).
    cbn [splitlines_from]. rewrite Hc. cbn. by rewrite app_nil_r.
  - change (String a line +:+ String c rest)
      with (String a (line +:+ String c rest)).
    cbn in Hline. apply andb_true_iff in Hline as [Ha Hline].
    cbn [splitlines_from]. unfold not_linebreak in Ha.
    apply negb_true_iff in Ha. rewrite Ha, (IH Hline). cbn.
    by rewrite <- app_assoc.
Qed.

Lemma splitlines_from_no_boundary acc line :
  all_chars not_linebreak line = true ->
  head (splitlines_from acc line)
  = match rev acc ++ list_ascii_of_string line with
    | [] => None
    | l => Some (string_of_list_ascii l)
    end.
Proof.
  revert acc. induction line as [|a line IH]; intros acc Hline.
  - cbn. rewrite app_nil_r. destruct acc as [|b acc]; [done|].
    cbn. destruct (rev acc ++ [b]) eqn:Hrev; [|done].
    by apply app_eq_nil in Hrev as [_ ?].
  - cbn in Hline. apply andb_true_iff in Hline as [Ha Hline].
    cbn [splitlines_from]. unfold not_linebreak in Ha.
    apply negb_true_iff in Ha. rewrite Ha, (IH _ Hline). cbn.
    by rewrite <- app_assoc.
Qed.

Lemma first_line_prefix line tail :
  all_chars not_linebreak line = true ->
  tail = EmptyString
  \/ (exists c rest, tail = String c rest /\ is_linebreak c = true) ->
  first_line (line +:+ tail) = line.
Proof.
  intros Hline [->|(c & rest & -> & Hc)]; unfold first_line, splitlines.
  - assert (line +:+ EmptyString = line) as ->.
    { clear. induction line as [|a line IH]; [done|].
      change (String a (line +:+ EmptyString) = String a line).
      by rewrite IH. }
    rewrite (splitlines_from_no_boundary [] line Hline). cbn.
    destruct line as [|a line]; [done|]. cbn.
    by rewrite string_of_list_ascii_of_string.
  - rewrite (splitlines_from_boundary [] line c rest Hline Hc). cbn.
    by rewrite string_of_list_ascii_of_string.
Qed.

(** X9.  The description is read off the first line alone: whatever
    follows the first line boundary of the docstring has no effect, and a
    docstring that opens with a line boundary gives the empty
    description. *)
Theorem description_reads_first_line_only self func st line tail :
  registers self func -> f_doc func = Some (line +:+ tail) ->
  all_chars not_linebreak line = true ->
  tail = EmptyString
  \/ (exists c rest, tail = String c rest /\ is_linebreak c = true) ->
  exists cmd st',
    __call__ self func st = (Return func, st')
    /\ objects st' !! length (objects st) = Some cmd
    /\ c_desc cmd = rstrip "." (strip line).
Proof.
  intros (Hnames & Hnargs & Hdoc) Hd Hline Htail.
  destruct (call_returns self func st Hnames Hnargs Hdoc) as
    (mainname & nargs' & desc & _ & _ & Hdesc & Hcall).
  rewrite (desc_of_doc_first_line _ Hdoc), Hd in Hdesc.
  rewrite (first_line_prefix line tail Hline Htail) in Hdesc.
  injection Hdesc as <-.
  eexists _, _. split; [exact Hcall|]. cbn [objects].
  split; [rewrite lookup_app_r by done; by rewrite Nat.sub_diag|done].
Qed.

Lemma description_reads_first_line_only_witness :
  exists cmd st',
    __call__ plain back initial_state = (Return back, st')
    /\ objects st' !! 0%nat = Some cmd
    /\ c_desc cmd = EmptyString.
Proof.
  apply (description_reads_first_line_only plain back initial_state
           EmptyString (LF +:+ "    Go back in the history.")).
  - repeat split; discriminate.
  - reflexivity.
  - reflexivity.
  - right. eexists _, _. split; reflexivity.
Defined.

(** No line that [splitlines] returns holds a line boundary. *)
Lemma splitlines_from_lines acc s :
  forallb not_linebreak acc = true ->
  Forall (fun l => all_chars not_linebreak l = true) (splitlines_from acc s).
Proof.
  revert acc. induction s as [|c r IH]; intros acc Hacc.
  - cbn. destruct acc as [|a acc]; [constructor|].
    apply Forall_singleton. by rewrite all_chars_of_list, forallb_rev.
  - cbn [splitlines_from]. destruct (is_linebreak c) eqn:Hc.
    + constructor; [by rewrite all_chars_of_list, forallb_rev|].
      destruct r as [|c' r']; [by apply IH|].
      destruct ((code c =? 13)%N && (code c' =? 10)%N) eqn:Hcrlf;
        [|by apply IH].
      apply andb_true_iff in Hcrlf as [_ Hlf%N.eqb_eq].
      specialize (IH [] eq_refl). cbn [splitlines_from] in IH.
      unfold is_linebreak in IH. rewrite Hlf in IH. cbn in IH.
      apply Forall_cons in IH as [_ IH]. by destruct r'.
    + apply IH. cbn. unfold not_linebreak at 1. by rewrite Hc, Hacc.
Qed.

Lemma all_chars_rstrip_by q p s :
  all_chars q s = true -> all_chars q (rstrip_by p s) = true.
Proof.
  destruct (rstrip_by_decompose p s) as (t & Hs & _).
  rewrite Hs at 1. rewrite all_chars_app. by intros [? _]%andb_true_iff.
Qed.

Lemma all_chars_lstrip_by q p s :
  all_chars q s = true -> all_chars q (lstrip_by p s) = true.
Proof.
  destruct (lstrip_by_decompose p s) as (t & Hs & _).
  rewrite Hs at 1. rewrite all_chars_app. by intros [_ ?]%andb_true_iff.
Qed.

(** X11.  The description of a registered [Command] is a single line: it
    holds no line boundary, whatever the docstring. *)
Theorem description_is_one_line self func st :
  registers self func ->
  exists cmd st',
    __call__ self func st = (Return func, st')
    /\ objects st' !! length (objects st) = Some cmd
    /\ all_chars not_linebreak (c_desc cmd) = true.
Proof.
  intros (Hnames & Hnargs & Hdoc).
  destruct (call_returns self func st Hnames Hnargs Hdoc) as
    (mainname & nargs' & desc & _ & _ & Hdesc & Hcall).
  eexists _, _. split; [exact Hcall|]. cbn [objects].
  split; [rewrite lookup_app_r by done; by rewrite Nat.sub_diag|].
  cbn [command_of c_desc]. unfold desc_of_doc in Hdesc.
  destruct (f_doc func) as [d|]; [|by injection Hdesc as <-].
  pose proof (splitlines_from_lines [] d eq_refl) as Hlines.
  fold (splitlines d) in Hlines.
  destruct (splitlines d) as [|line rest]; [done|].
  injection Hdesc as <-. apply Forall_cons in Hlines as [Hline _].
  unfold rstrip, strip.
  by apply all_chars_rstrip_by, all_chars_rstrip_by, all_chars_lstrip_by.
Qed.

Lemma description_is_one_line_witness :
  exists cmd st',
    __call__ plain search initial_state = (Return search, st')
    /\ objects st' !! 0%nat = Some cmd
    /\ all_chars not_linebreak (c_desc cmd) = true.
Proof.
  apply (description_is_one_line plain search initial_state).
  repeat split; discriminate.
Defined.

End name_and_description_properties.

(** ** Further properties: aliases and growing signatures *)

Section alias_and_signature_properties.

Import register.

Implicit Types (self : register.t) (func : function) (st : state).

Lemma dom_bind_names names r (d : gmap string ref) :
  dom (bind_names names r d) = list_to_set names ∪ dom d.
Proof.
  revert d. induction names as [|n names IH]; intros d.
  - cbn. apply set_eq. intros k.
    rewrite elem_of_union, elem_of_empty. tauto.
  - change (bind_names (n :: names) r d)
      with (bind_names names r (<[n:=r]> d)).
    rewrite IH, dom_insert_L. cbn [list_to_set]. apply set_eq. intros k.
    rewrite !elem_of_union. tauto.
Qed.

Lemma size_bind_names names r (d : gmap string ref) :
  NoDup names -> (forall k, k ∈ names -> d !! k = None) ->
  size (bind_names names r d) = (length names + size d)%nat.
Proof.
  revert d. induction names as [|n names IH]; intros d Hnd Hfresh; [done|].
  apply NoDup_cons in Hnd as [Hn Hnd].
  change (bind_names (n :: names) r d)
    with (bind_names names r (<[n:=r]> d)).
  rewrite IH; [|done|].
  - rewrite map_size_insert_None by (apply Hfresh; left). cbn. lia.
  - intros k Hk. rewrite lookup_insert_ne by (by intros ->).
    apply Hfresh. by right.
Qed.

(** X13.  However many names a decorator lists, one completed call makes
    one [Command], named after the first of them, and binds every listed
    name to it; the keys of [cmd_dict] are then the old keys and the
    listed names, and [cmd_dict] grows by the length of the list when the
    names are distinct and new. *)
Theorem aliases_share_one_command self func st :
  registers self func ->
  exists cmd st',
    __call__ self func st = (Return func, st')
    /\ objects st' = objects st ++ [cmd]
    /\ head (registered_names self func) = Some (c_name cmd)
    /\ (forall k, k ∈ registered_names self func ->
          cmd_dict st' !! k = Some (length (objects st)))
    /\ dom (cmd_dict st')
       = list_to_set (registered_names self func) ∪ dom (cmd_dict st)
    /\ (NoDup (registered_names self func) ->
        (forall k, k ∈ registered_names self func ->
           cmd_dict st !! k = None) ->
        size (cmd_dict st')
        = (length (registered_names self func) + size (cmd_dict st))%nat).
Proof.
  intros (Hnames & Hnargs & Hdoc).
  destruct (call_returns self func st Hnames Hnargs Hdoc) as
    (mainname & nargs' & desc & Hmain & _ & _ & Hcall).
  eexists _, _. split; [exact Hcall|]. cbn [objects cmd_dict].
  split; [done|]. split; [done|]. split.
  { intros k Hk. by rewrite lookup_bind_names, bool_decide_eq_true_2. }
  split; [apply dom_bind_names|apply size_bind_names].
Qed.

Lemma aliases_share_one_command_witness :
  exists cmd st',
    __call__ (with_names ["o"; "open"; "go"; "o"]) openurl initial_state
    = (Return openurl, st')
    /\ objects st' = [cmd]
    /\ c_name cmd = "o"
    /\ cmd_dict st' !! "go" = Some 0%nat
    /\ dom (cmd_dict st') = {["o"; "open"; "go"]}.
Proof.
  destruct (aliases_share_one_command
              (with_names ["o"; "open"; "go"; "o"]) openurl initial_state)
    as (cmd & st' & Hcall & Hobjs & Hname & Hkeys & Hdom & _).
  { repeat split; discriminate. }
  exists cmd, st'. split; [exact Hcall|]. split; [exact Hobjs|].
  split; [by injection Hname|]. split; [apply Hkeys; decide_by_compute|].
  rewrite Hdom. apply set_eq. intros k. cbn.
  rewrite !elem_of_union, !elem_of_singleton, dom_empty, elem_of_empty.
  tauto.
Defined.

Lemma wf_add_param p func :
  wf_function func -> p_name p ∉ p_name <$> f_params func ->
  wf_function (add_param p func).
Proof.
  intros Hwf Hp. unfold wf_function. cbn. rewrite fmap_app.
  apply NoDup_app. split; [done|]. split; [|apply NoDup_singleton].
  intros k Hk ->%list_elem_of_singleton. done.
Qed.

(** X14.  One more parameter, called neither [self] nor [count], moves
    the arity read off the signature by one: a parameter with a default
    leaves [minargs] and raises a bounded [maxargs] by one, a parameter
    without default raises both; the count flag stays. *)
Theorem arity_of_one_more_parameter self func p :
  nargs self = None -> wf_function func ->
  p_name p ∉ p_name <$> f_params func ->
  p_name p ≠ "self" -> p_name p ≠ "count" ->
  exists minargs maxargs,
    _get_nargs_count self func
    = Return (has_param "count" func, (Some minargs, maxargs))
    /\ _get_nargs_count self (add_param p func)
       = Return (has_param "count" func,
                 (Some match p_default p with
                       | Some _ => minargs
                       | None => minargs + 1
                       end,
                  Z.succ <$> maxargs)).
Proof.
  intros Hn Hwf Hfresh Hself Hcount.
  rewrite (get_nargs_count_signature self func Hn Hwf).
  rewrite (get_nargs_count_signature self _ Hn
             (wf_add_param p func Hwf Hfresh)).
  assert (has_param "count" (add_param p func) = has_param "count" func)
    as ->.
  { apply bool_decide_ext. cbn. rewrite fmap_app, elem_of_app.
    cbn. rewrite list_elem_of_singleton. split; [|by left].
    by intros [?|?]. }
  assert (param_count (add_param p func) = param_count func + 1) as ->.
  { unfold param_count, non_receiver_params, params_without. cbn.
    rewrite filter_app, filter_cons_True by done.
    rewrite length_app. cbn. lia. }
  assert (default_count (add_param p func)
          = default_count func
            + match p_default p with Some _ => 1 | None => 0 end) as ->.
  { unfold default_count. cbn. rewrite filter_app, length_app.
    rewrite filter_cons.
    destruct (decide (has_default p)) as [[d Hd]|Hd].
    - rewrite Hd. cbn. lia.
    - destruct (p_default p) as [d|] eqn:Hp; [|cbn; lia].
      exfalso. apply Hd. unfold has_default. rewrite Hp. eauto. }
  change (f_varargs (add_param p func)) with (f_varargs func).
  eexists _, _. split; [reflexivity|].
  do 3 f_equal.
  - f_equal. destruct (p_default p); lia.
  - destruct (f_varargs func); [done|]. cbn. f_equal. lia.
Qed.

Lemma arity_of_one_more_parameter_witness :
  _get_nargs_count plain search = Return (false, (Some 1, Some 2))
  /\ _get_nargs_count plain
       (add_param (Param "flags" (Some (PyStr "i"))) search)
     = Return (false, (Some 1, Some 3)).
Proof.
  destruct (arity_of_one_more_parameter plain search
              (Param "flags" (Some (PyStr "i"))))
    as (minargs & maxargs & Hget & Hadd);
    [reflexivity|apply wf_search|decide_by_compute|discriminate
    |discriminate|].
  injection Hget as <- <-. split; [reflexivity|exact Hadd].
Defined.

End alias_and_signature_properties.
